(** * Breadcrumbs2: the breadcrumb list controller of popover2

    A shallow embedding of [packages/popover2/src/breadcrumbs2.tsx] and the
    properties its specification states about it.

    JavaScript objects are finite maps from attribute names to values
    ([gmap string _]); a JSX element is its type, its key and the map of its
    props, built attribute by attribute from left to right so that a later
    attribute or spread replaces an earlier one, as React does.  Breadcrumb
    descriptors carry the address of the object next to its attributes,
    because the controller recognises the current breadcrumb with [===].
    Calls to the renderers supplied by the caller are recorded in a log. *)

From stdpp Require Import gmap strings list fin_maps.

Open Scope string_scope.
Open Scope list_scope.

(** ** Values *)

(** The values a descriptor attribute can hold.  Functions and React nodes
    supplied by the caller are opaque and told apart by a tag. *)
Inductive JSValue :=
| JUndefined
| JNull
| JBool (b : bool)
| JNum (n : Z)
| JStr (s : string)
| JFun (id : positive)
| JNode (id : positive).

(** [v == null] *)
Definition isNullish (v : JSValue) : bool :=
  match v with
  | JUndefined | JNull => true
  | _ => false
  end.

(** [o.k]: reading an attribute that the object lacks yields [undefined]. *)
Definition get (o : gmap string JSValue) (k : string) : JSValue :=
  default JUndefined (o !! k).

(** [BreadcrumbProps]: one descriptor.  [addr] is the identity of the
    object, [own] its attributes ([text], [href], [onClick], [current],
    [disabled], ...). *)
Record BreadcrumbProps := mkBreadcrumbProps {
  addr : positive;
  own : gmap string JSValue;
}.

(** [x === props] where [x] is an array element or [undefined]: objects are
    compared by identity. *)
Definition strictEq (x : option BreadcrumbProps) (props : BreadcrumbProps) : bool :=
  match x with
  | Some y => bool_decide (addr y = addr props)
  | None => false
  end.

Inductive Boundary := START | END.

(** The two bound methods the controller hands to the overflow list. *)
Inductive Method := RenderOverflow | RenderBreadcrumbWrapper.

(** ** Elements *)

Inductive ElementType :=
| Breadcrumb
| Menu
| MenuItem2
| OverflowList
| Popover2
| Host (tagName : string).

Inductive Element :=
| Elem (type : ElementType) (key : option nat) (props : gmap string PropValue)
with PropValue :=
| PV (v : JSValue)
| PBoundary (b : Boundary)
| PItems (l : list BreadcrumbProps)
| PMethod (m : Method)
| PElement (e : Element)
| PElements (l : list Element).

Definition elemType (e : Element) : ElementType :=
  match e with Elem t _ _ => t end.
Definition elemKey (e : Element) : option nat :=
  match e with Elem _ k _ => k end.
Definition elemProps (e : Element) : gmap string PropValue :=
  match e with Elem _ _ p => p end.

(** One attribute position of a JSX opening tag: [k={v}] or [{...m}]. *)
Inductive Attr :=
| attr (k : string) (v : PropValue)
| spread (m : gmap string PropValue).

Definition applyAttr (acc : gmap string PropValue) (a : Attr) : gmap string PropValue :=
  match a with
  | attr k v => <[k := v]> acc
  | spread m => m ∪ acc
  end.

(** [<type key={key} a1 a2 ... />]: attributes are applied in source order.
    The props are the ones written in the expression: a [key] or [ref] that
    arrives through a spread is kept among them, where React takes it out,
    and the defaults that the element type declares for props left
    [undefined] are not filled in.  Statements about the props of an
    element that depend on either say so ([reservedProps], defined
    values). *)
Definition jsx (type : ElementType) (key : option nat) (attrs : list Attr) : Element :=
  Elem type key (foldl applyAttr ∅ attrs).

(** The names React reserves: [createElement] takes them out of the props
    of an element. *)
Definition reservedProps : list string := ["key"; "ref"; "__self"; "__source"].

(** The children written between an opening and a closing tag end up in the
    [children] prop, after every attribute. *)
Definition children (v : PropValue) : Attr := attr "children" v.

(** [{...o}] for a descriptor or another object of plain values. *)
Definition spreadObj (o : gmap string JSValue) : Attr := spread (PV <$> o).

(** [optional(v)]: an optional prop that was not supplied reads as
    [undefined]. *)
Definition orUndefined (v : option PropValue) : PropValue :=
  default (PV JUndefined) v.

(** ** The render log *)

(** A call to one of the two renderers the caller may supply. *)
Inductive Call :=
| CallBreadcrumbRenderer (props : BreadcrumbProps)
| CallCurrentBreadcrumbRenderer (props : BreadcrumbProps).

(** A computation that renders: its result and the renderer calls it made,
    oldest first. *)
Definition Render (A : Type) : Type := A * list Call.

#[export] Instance Render_ret : MRet Render := λ A x, (x, []).
#[export] Instance Render_bind : MBind Render :=
  λ A B f m, let r := f m.1 in (r.1, m.2 ++ r.2).

Definition result {A} (m : Render A) : A := m.1.
Definition calls {A} (m : Render A) : list Call := m.2.

(** [l.map((x, i) => f(x, i))] for a callback that renders. *)
Fixpoint mapRenderFrom {A B} (f : A → nat → Render B) (i : nat) (l : list A)
  : Render (list B) :=
  match l with
  | [] => mret []
  | x :: l' => y ← f x i; ys ← mapRenderFrom f (S i) l'; mret (y :: ys)
  end.
Definition mapRender {A B} (f : A → nat → Render B) (l : list A) : Render (list B) :=
  mapRenderFrom f 0 l.

Definition isBreadcrumbRendererCall (c : Call) : bool :=
  match c with CallBreadcrumbRenderer _ => true | _ => false end.
Definition isCurrentBreadcrumbRendererCall (c : Call) : bool :=
  match c with CallCurrentBreadcrumbRenderer _ => true | _ => false end.
Definition callArg (c : Call) : BreadcrumbProps :=
  match c with
  | CallBreadcrumbRenderer p | CallCurrentBreadcrumbRenderer p => p
  end.

(** How often a log calls a renderer. *)
Definition timesCalled (which : Call → bool) (log : list Call) : nat :=
  length (filter (λ c, which c = true) log).

(** ** What the component imports *)

(** [classNames(...)] of the [classnames] package, on the arguments the
    component gives it (strings and [undefined]): the arguments that are
    non-empty strings, joined by single spaces. *)
Definition classNames (args : list (option string)) : string :=
  String.concat " " (filter (λ s, s ≠ "") (omap id args)).

(** The names imported from ["@blueprintjs/core"] whose definitions are not
    among the sources at hand: two class-name constants of [Classes] and the
    helper [removeNonHTMLProps], which returns a copy of an object of props
    without those that are not valid for an HTML element. *)
Class BlueprintCore := {
  BREADCRUMBS : string;
  BREADCRUMBS_COLLAPSED : string;
  removeNonHTMLProps : gmap string JSValue → gmap string JSValue;
}.

(** Modelled from the spec: the table [INVALID_PROPS] of
    ["@blueprintjs/core"] (common/props) is not under src/: the curated
    names of props, used across the components, that are not valid for an
    HTML element. *)
Definition INVALID_PROPS : list string :=
  ["active"; "alignText"; "asyncControl"; "containerRef"; "current";
   "elementRef"; "fill"; "icon"; "inputClassName"; "inputRef"; "intent";
   "inline"; "large"; "loading"; "leftElement"; "leftIcon"; "minimal";
   "onRemove"; "outlined"; "panel"; "panelClassName"; "popoverProps";
   "rightElement"; "rightIcon"; "round"; "small"; "tagName"; "text"].

(** Modelled from the spec: [removeNonHTMLProps], imported from
    ["@blueprintjs/core"], is not under src/.  As its name says, and as its
    result is used ([htmlProps], spread on the menu item before the label is
    put back explicitly), it returns a copy of the props without those that
    are not valid for an HTML element: the names of [INVALID_PROPS], the
    label and the current override among them.  Link target, click handler,
    [disabled] and the other HTML attributes stay. *)
Definition removeNonHTMLProps_spec (props : gmap string JSValue) : gmap string JSValue :=
  foldr delete props INVALID_PROPS.

(** ** Props of the component *)

(** [Breadcrumbs2Props].  An optional prop that is left out is [None].
    [overflowListProps] and [popoverProps] are kept as the objects they are
    at run time; the field names their declared types leave out are
    [overflowListPropsOmitted] and [popoverPropsOmitted] below. *)
Record Breadcrumbs2Props := mkBreadcrumbs2Props {
  className : option string;
  breadcrumbRenderer : option (BreadcrumbProps → Element);
  collapseFrom : option Boundary;
  currentBreadcrumbRenderer : option (BreadcrumbProps → Element);
  items : list BreadcrumbProps;
  minVisibleItems : option nat;
  overflowListProps : option (gmap string PropValue);
  popoverProps : option (gmap string PropValue);
}.

(** [static defaultProps = { collapseFrom: Boundary.START }]: React fills in
    a prop that was left out before the instance sees [this.props]. *)
Definition withDefaultProps (p : Breadcrumbs2Props) : Breadcrumbs2Props :=
  {| className := className p;
     breadcrumbRenderer := breadcrumbRenderer p;
     collapseFrom := Some (default START (collapseFrom p));
     currentBreadcrumbRenderer := currentBreadcrumbRenderer p;
     items := items p;
     minVisibleItems := minVisibleItems p;
     overflowListProps := overflowListProps p;
     popoverProps := popoverProps p |}.

(** The field names that the declared type of [popoverProps] leaves out of
    [Popover2Props]. *)
Definition popoverPropsOmitted : list string :=
  ["content"; "defaultIsOpen"; "disabled"; "fill"; "renderTarget"; "targetTagName"].

(** [popoverProps] has its declared type, as far as field names go. *)
Definition popoverPropsTyped (this : Breadcrumbs2Props) : Prop :=
  Forall (λ k, default ∅ (popoverProps this) !! k = None) popoverPropsOmitted.

(** The field names that the declared type of [overflowListProps] leaves out
    of [OverflowListProps]. *)
Definition overflowListPropsOmitted : list string :=
  ["items"; "overflowRenderer"; "visibleItemRenderer"].

Section Breadcrumbs2.
Context `{BlueprintCore}.

(** [renderBreadcrumb(props, isCurrent)] *)
Definition renderBreadcrumb (this : Breadcrumbs2Props)
    (props : BreadcrumbProps) (isCurrent : bool) : Render Element :=
  match (if isCurrent then currentBreadcrumbRenderer this else None) with
  | Some currentRenderer =>
      (currentRenderer props, [CallCurrentBreadcrumbRenderer props])
  | None =>
      match breadcrumbRenderer this with
      | Some renderer => (renderer props, [CallBreadcrumbRenderer props])
      | None =>
          mret (jsx Breadcrumb None
                  [attr "current" (PV (JBool isCurrent)); spreadObj (own props)])
      end
  end.

(** [renderBreadcrumbWrapper(props, index)] *)
Definition renderBreadcrumbWrapper (this : Breadcrumbs2Props)
    (props : BreadcrumbProps) (index : nat) : Render Element :=
  let isCurrent := strictEq (last (items this)) props in
  e ← renderBreadcrumb this props isCurrent;
  mret (jsx (Host "li") (Some index) [children (PElement e)]).

(** [renderOverflowBreadcrumb(props, index)] *)
Definition renderOverflowBreadcrumb (props : BreadcrumbProps) (index : nat) : Element :=
  let isClickable :=
    negb (isNullish (get (own props) "href"))
    || negb (isNullish (get (own props) "onClick")) in
  let htmlProps := removeNonHTMLProps (own props) in
  jsx MenuItem2 (Some index)
    [attr "disabled" (PV (JBool (negb isClickable)));
     spreadObj htmlProps;
     attr "text" (PV (get (own props) "text"))].

(** The local [orderedItems] of [renderOverflow]. *)
Definition orderedItems (this : Breadcrumbs2Props) (items : list BreadcrumbProps)
  : list BreadcrumbProps :=
  match collapseFrom this with
  | Some START => reverse items
  | _ => items
  end.

(** [renderOverflow(items)] *)
Definition renderOverflow (this : Breadcrumbs2Props) (items : list BreadcrumbProps)
  : Element :=
  let orderedItems := orderedItems this items in
  jsx (Host "li") None
    [children (PElement
       (jsx Popover2 None
          [attr "placement"
             (PV (JStr (match collapseFrom this with
                        | Some END => "bottom-end"
                        | _ => "bottom-start"
                        end)));
           attr "disabled" (PV (JBool (bool_decide (length orderedItems = 0))));
           attr "content"
             (PElement (jsx Menu None
                [children (PElements
                   (imap (λ index props, renderOverflowBreadcrumb props index)
                      orderedItems))]));
           spread (default ∅ (popoverProps this));
           children (PElement
             (jsx (Host "span") None
                [attr "className" (PV (JStr BREADCRUMBS_COLLAPSED))]))]))].

(** [render()]: the [OverflowList] element.  [overflowListProps.className]
    is declared [string | undefined]; [classNames] is modelled on those, and
    a value of another kind is read as absent. *)
Definition render (this : Breadcrumbs2Props) : Element :=
  let overflowListProps := default ∅ (overflowListProps this) in
  jsx OverflowList None
    [attr "collapseFrom" (orUndefined (PBoundary <$> collapseFrom this));
     attr "minVisibleItems"
       (orUndefined ((λ n, PV (JNum (Z.of_nat n))) <$> minVisibleItems this));
     attr "tagName" (PV (JStr "ul"));
     spread overflowListProps;
     attr "className"
       (PV (JStr (classNames
          [Some BREADCRUMBS;
           match overflowListProps !! "className" with
           | Some (PV (JStr s)) => Some s
           | _ => None
           end;
           className this])));
     attr "items" (PItems (items this));
     attr "overflowRenderer" (PMethod RenderOverflow);
     attr "visibleItemRenderer" (PMethod RenderBreadcrumbWrapper)].

End Breadcrumbs2.

(** ** The overflow list *)

Section OverflowList.
Context `{BlueprintCore}.

(** Modelled from the spec: the overflow-list collaborator ([OverflowList]
    of ["@blueprintjs/core"]) is not under src/.  By the spec it receives
    the items and a minimum visible count, which is a floor on the number of
    items that stay visible whatever the available space, and hands back a
    visible and an overflowed subsequence; the collapse direction says which
    end of the trail is hidden first, and the overflow indicator is rendered
    only when at least one item is overflowed.  [fit] is the number of items
    the measured container admits. *)
Definition visibleCount (minVisibleItems fit n : nat) : nat :=
  Nat.min n (Nat.max minVisibleItems fit).

(** Modelled from the spec: the split of the overflow-list collaborator
    into the visible and the overflowed items, both in source order. *)
Definition partitionItems (collapseFrom : Boundary) (count : nat)
    (items : list BreadcrumbProps) : list BreadcrumbProps * list BreadcrumbProps :=
  match collapseFrom with
  | START => (drop (length items - count) items, take (length items - count) items)
  | END => (take count items, drop count items)
  end.

(** Modelled from the spec: what the overflow-list collaborator reads from
    the props it is given; collapse direction and minimum visible count
    default to [START] and [0]. *)
Definition receivedCollapseFrom (props : gmap string PropValue) : Boundary :=
  match props !! "collapseFrom" with
  | Some (PBoundary b) => b
  | _ => START
  end.
Definition receivedMinVisibleItems (props : gmap string PropValue) : nat :=
  match props !! "minVisibleItems" with
  | Some (PV (JNum n)) => Z.to_nat n
  | _ => 0
  end.
Definition receivedItems (props : gmap string PropValue) : list BreadcrumbProps :=
  match props !! "items" with
  | Some (PItems l) => l
  | _ => []
  end.

Definition visibleItems (this : Breadcrumbs2Props) (fit : nat) : list BreadcrumbProps :=
  let props := elemProps (render this) in
  let items := receivedItems props in
  (partitionItems (receivedCollapseFrom props)
     (visibleCount (receivedMinVisibleItems props) fit (length items)) items).1.

Definition overflowItems (this : Breadcrumbs2Props) (fit : nat) : list BreadcrumbProps :=
  let props := elemProps (render this) in
  let items := receivedItems props in
  (partitionItems (receivedCollapseFrom props)
     (visibleCount (receivedMinVisibleItems props) fit (length items)) items).2.

(** The visible path: [visible.map(visibleItemRenderer)], where the
    renderer is the controller's [renderBreadcrumbWrapper]. *)
Definition renderVisible (this : Breadcrumbs2Props) (visible : list BreadcrumbProps)
  : Render (list Element) :=
  mapRender (renderBreadcrumbWrapper this) visible.

(** Modelled from the spec: one render pass of the overflow-list
    collaborator over the element [render] produced.  It calls the two
    callbacks it was given, which are the controller's own; the overflow
    indicator sits at the end the trail collapses from. *)
Definition mountOverflowList (this : Breadcrumbs2Props) (fit : nat)
  : Render (list Element) :=
  let overflow := overflowItems this fit in
  let indicator :=
    if bool_decide (overflow = []) then [] else [renderOverflow this overflow] in
  wrappers ← renderVisible this (visibleItems this fit);
  mret (match receivedCollapseFrom (elemProps (render this)) with
        | START => indicator ++ wrappers
        | END => wrappers ++ indicator
        end).

(** Mounting [<Breadcrumbs2 {...props} />] in a container that admits [fit]
    items. *)
Definition Breadcrumbs2 (props : Breadcrumbs2Props) (fit : nat) : Render (list Element) :=
  mountOverflowList (withDefaultProps props) fit.

End OverflowList.

(** ** Reading rendered elements *)

Definition prop (e : Element) (k : string) : option PropValue := elemProps e !! k.

Definition onlyChild (e : Element) : option Element :=
  match prop e "children" with
  | Some (PElement c) => Some c
  | _ => None
  end.

(** The [Popover2] inside the [li] that [renderOverflow] returns. *)
Definition overflowPopover (li : Element) : option Element := onlyChild li.

(** The entries of the [Menu] that is the content of that popover. *)
Definition overflowMenuEntries (li : Element) : list Element :=
  match overflowPopover li ≫= (λ popover, prop popover "content") with
  | Some (PElement menu) =>
      match prop menu "children" with
      | Some (PElements entries) => entries
      | _ => []
      end
  | _ => []
  end.

(** The breadcrumb inside a wrapper [li] of the visible path. *)
Definition wrappedBreadcrumb (li : Element) : option Element := onlyChild li.

(** A rendered breadcrumb is marked current when its [current] prop is
    [true]. *)
Definition markedCurrent (li : Element) : bool :=
  match wrappedBreadcrumb li ≫= (λ b, prop b "current") with
  | Some (PV (JBool true)) => true
  | _ => false
  end.

(** ** Fixtures *)

(** Modelled from the spec: an instance of the imports for concrete
    examples.  The spec only says that the base class is fixed; the two
    class names stand for [Classes.BREADCRUMBS] and
    [Classes.BREADCRUMBS_COLLAPSED], and the helper is
    [removeNonHTMLProps_spec]. *)
Definition exampleCore : BlueprintCore :=
  {| BREADCRUMBS := "bp4-breadcrumbs";
     BREADCRUMBS_COLLAPSED := "bp4-breadcrumbs-collapsed";
     removeNonHTMLProps := removeNonHTMLProps_spec |}.

(** [const ITEMS = [{ text: "1" }, { text: "2" }, { text: "3" }]] of the
    test suite: three distinct objects. *)
Definition ITEMS : list BreadcrumbProps :=
  [mkBreadcrumbProps 1 {["text" := JStr "1"]};
   mkBreadcrumbProps 2 {["text" := JStr "2"]};
   mkBreadcrumbProps 3 {["text" := JStr "3"]}].

(** [<Breadcrumbs2 items={items} />] with every optional prop left out. *)
Definition justItems (items : list BreadcrumbProps) : Breadcrumbs2Props :=
  {| className := None;
     breadcrumbRenderer := None;
     collapseFrom := None;
     currentBreadcrumbRenderer := None;
     items := items;
     minVisibleItems := None;
     overflowListProps := None;
     popoverProps := None |}.

(** [<Breadcrumbs2 items={items} minVisibleItems={items.length} />] with the
    two renderers as given. *)
Definition allVisible (renderer currentRenderer : option (BreadcrumbProps → Element))
    (items : list BreadcrumbProps) : Breadcrumbs2Props :=
  {| className := None;
     breadcrumbRenderer := renderer;
     collapseFrom := None;
     currentBreadcrumbRenderer := currentRenderer;
     items := items;
     minVisibleItems := Some (length items);
     overflowListProps := None;
     popoverProps := None |}.

(** [<Breadcrumbs2 collapseFrom={collapseFrom} items={items}
    popoverProps={popoverProps} />] *)
Definition collapsing (collapseFrom : option Boundary) (items : list BreadcrumbProps)
    (popoverProps : gmap string PropValue) : Breadcrumbs2Props :=
  {| className := None;
     breadcrumbRenderer := None;
     collapseFrom := collapseFrom;
     currentBreadcrumbRenderer := None;
     items := items;
     minVisibleItems := None;
     overflowListProps := None;
     popoverProps := Some popoverProps |}.

(** [popoverProps={{ isOpen: true, usePortal: false }}] of the test suite. *)
Definition testPopoverProps : gmap string PropValue :=
  {["isOpen" := PV (JBool true); "usePortal" := PV (JBool false)]}.

(** [() => <div />] *)
Definition divRenderer (_ : BreadcrumbProps) : Element := jsx (Host "div") None [].

(** The props of the test "passes through props to the OverflowList". *)
Definition passThroughProps : Breadcrumbs2Props :=
  {| className := Some "breadcrumbs-class";
     breadcrumbRenderer := None;
     collapseFrom := Some END;
     currentBreadcrumbRenderer := None;
     items := [];
     minVisibleItems := Some 7;
     overflowListProps :=
       Some {["className" := PV (JStr "overflow-list-class");
              "tagName" := PV (JStr "article")]};
     popoverProps := None |}.

(** [const home = { text: "Home" }] used for the first and the last item:
    one object at two positions. *)
Definition homeTwice : list BreadcrumbProps :=
  [mkBreadcrumbProps 1 {["text" := JStr "Home"]};
   mkBreadcrumbProps 2 {["text" := JStr "Docs"]};
   mkBreadcrumbProps 1 {["text" := JStr "Home"]}].

(** Two distinct descriptors, the first of which carries [current: true]. *)
Definition currentFirst : list BreadcrumbProps :=
  [mkBreadcrumbProps 1 {["text" := JStr "1"; "current" := JBool true]};
   mkBreadcrumbProps 2 {["text" := JStr "2"]}].

(** * Properties *)

(** ** Reading the props of the elements the controller builds *)

Section ElementLemmas.
Context `{BlueprintCore}.

Lemma prop_renderOverflowBreadcrumb_text props index :
  prop (renderOverflowBreadcrumb props index) "text"
  = Some (PV (get (own props) "text")).
Proof.
  unfold prop, renderOverflowBreadcrumb, jsx; cbn [foldl applyAttr elemProps].
  apply lookup_insert_eq.
Qed.

Lemma prop_renderOverflowBreadcrumb_other props index k :
  k ≠ "text" →
  prop (renderOverflowBreadcrumb props index) k
  = match removeNonHTMLProps (own props) !! k with
    | Some v => Some (PV v)
    | None =>
        if decide (k = "disabled")
        then Some (PV (JBool (negb
               (negb (isNullish (get (own props) "href"))
                || negb (isNullish (get (own props) "onClick"))))))
        else None
    end.
Proof.
  intros Hk.
  unfold prop, renderOverflowBreadcrumb, jsx, spreadObj;
    cbn [foldl applyAttr elemProps].
  rewrite lookup_insert_ne by congruence.
  rewrite lookup_union, lookup_fmap.
  destruct (removeNonHTMLProps (own props) !! k) as [v|] eqn:Hv; cbn.
  - match goal with |- Some _ ∪ ?o = _ => by destruct o end.
  - destruct (decide (k = "disabled")) as [->|Hd].
    + by rewrite lookup_insert_eq.
    + by rewrite lookup_insert_ne, lookup_empty by congruence.
Qed.

Lemma overflowPopover_renderOverflow this overflowed :
  ∃ popover,
    overflowPopover (renderOverflow this overflowed) = Some popover
    ∧ elemType popover = Popover2
    ∧ ∀ k, k ≠ "children" →
        prop popover k
        = match default ∅ (popoverProps this) !! k with
          | Some v => Some v
          | None =>
              (<["content" := PElement (jsx Menu None
                   [children (PElements
                      (imap (λ index props, renderOverflowBreadcrumb props index)
                         (orderedItems this overflowed)))])]>
               (<["disabled" := PV (JBool
                    (bool_decide (length (orderedItems this overflowed) = 0)))]>
               (<["placement" := PV (JStr
                    (match collapseFrom this with
                     | Some END => "bottom-end"
                     | _ => "bottom-start"
                     end))]> (∅ : gmap string PropValue)))) !! k
          end.
Proof.
  eexists. split; [|split].
  - unfold overflowPopover, onlyChild, prop, renderOverflow.
    unfold jsx at 1, children at 1; cbn [foldl applyAttr elemProps].
    rewrite lookup_insert_eq. reflexivity.
  - reflexivity.
  - intros k Hk. unfold prop, jsx, children; cbn [foldl applyAttr elemProps].
    rewrite lookup_insert_ne by congruence.
    rewrite lookup_union.
    destruct (default ∅ (popoverProps this) !! k) as [v|]; cbn.
    + match goal with |- Some _ ∪ ?o = _ => by destruct o end.
    + match goal with |- None ∪ ?o = _ => by destruct o end.
Qed.

Lemma length_orderedItems this overflowed :
  length (orderedItems this overflowed) = length overflowed.
Proof.
  unfold orderedItems. destruct (collapseFrom this) as [[]|]; auto using length_reverse.
Qed.

Lemma popoverPropsTyped_lookup this k :
  popoverPropsTyped this → k ∈ popoverPropsOmitted →
  default ∅ (popoverProps this) !! k = None.
Proof. intros Ht Hk. by apply (proj1 (Forall_forall _ _) Ht). Qed.

Lemma overflowMenuEntries_renderOverflow this overflowed :
  popoverPropsTyped this →
  overflowMenuEntries (renderOverflow this overflowed)
  = imap (λ index props, renderOverflowBreadcrumb props index)
      (orderedItems this overflowed).
Proof.
  intros Ht.
  destruct (overflowPopover_renderOverflow this overflowed) as (pop & Hpop & _ & Hprops).
  unfold overflowMenuEntries. rewrite Hpop; cbn.
  rewrite Hprops by done.
  rewrite (popoverPropsTyped_lookup this "content" Ht)
    by (unfold popoverPropsOmitted; set_solver).
  rewrite lookup_insert_eq.
  unfold prop, jsx, children; cbn [foldl applyAttr elemProps].
  by rewrite lookup_insert_eq.
Qed.

End ElementLemmas.

(** ** The default breadcrumb element *)

(** What [<Breadcrumb current={isCurrent} {...props} />] ends up with. *)
Lemma prop_default_breadcrumb isCurrent (o : gmap string JSValue) k :
  prop (jsx Breadcrumb None [attr "current" (PV (JBool isCurrent)); spreadObj o]) k
  = match o !! k with
    | Some v => Some (PV v)
    | None => if decide (k = "current") then Some (PV (JBool isCurrent)) else None
    end.
Proof.
  unfold prop, jsx, spreadObj; cbn [foldl applyAttr elemProps].
  rewrite lookup_union, lookup_fmap.
  destruct (o !! k) as [v|]; cbn.
  - match goal with |- Some _ ∪ ?x = _ => by destruct x end.
  - destruct (decide (k = "current")) as [->|Hk].
    + by rewrite lookup_insert_eq.
    + by rewrite lookup_insert_ne, lookup_empty by congruence.
Qed.

Lemma renderBreadcrumb_default this props isCurrent :
  breadcrumbRenderer this = None →
  currentBreadcrumbRenderer this = None →
  renderBreadcrumb this props isCurrent
  = mret (jsx Breadcrumb None
            [attr "current" (PV (JBool isCurrent)); spreadObj (own props)]).
Proof.
  intros Hb Hc. unfold renderBreadcrumb. rewrite Hb, Hc. by destruct isCurrent.
Qed.

(** C1, as amended.  When neither [breadcrumbRenderer] nor
    [currentBreadcrumbRenderer] is supplied, [renderBreadcrumb] calls no
    renderer and returns a [Breadcrumb] element whose [current] prop is the
    descriptor's own [current] field when the descriptor has one, and the
    computed [isCurrent] flag only when it has none: the descriptor is
    spread after the computed flag and so supersedes it. *)
Theorem renderBreadcrumb_default_current this props isCurrent :
  breadcrumbRenderer this = None →
  currentBreadcrumbRenderer this = None →
  elemType (result (renderBreadcrumb this props isCurrent)) = Breadcrumb
  ∧ calls (renderBreadcrumb this props isCurrent) = []
  ∧ prop (result (renderBreadcrumb this props isCurrent)) "current"
    = Some (match own props !! "current" with
            | Some v => PV v
            | None => PV (JBool isCurrent)
            end).
Proof.
  intros Hb Hc. rewrite renderBreadcrumb_default by done.
  split; [reflexivity|]. split; [reflexivity|].
  unfold result, mret, Render_ret; cbn [fst].
  rewrite prop_default_breadcrumb. by destruct (own props !! "current").
Qed.

Lemma renderBreadcrumb_default_current_witness :
  prop (result (renderBreadcrumb (justItems ITEMS)
                  (mkBreadcrumbProps 3 {["text" := JStr "3"]}) true)) "current"
  = Some (PV (JBool true)).
Proof.
  exact (proj2 (proj2 (renderBreadcrumb_default_current (justItems ITEMS)
    (mkBreadcrumbProps 3 {["text" := JStr "3"]}) true eq_refl eq_refl))).
Defined.

(** C1, as stated, fails: the first of two descriptors carries
    [current: true]; it is not the last item, so the computed flag is
    [false], yet the rendered [Breadcrumb] has [current = true]. *)
Lemma renderBreadcrumb_current_overridden :
  let first := mkBreadcrumbProps 1 {["text" := JStr "1"; "current" := JBool true]} in
  let this := justItems currentFirst in
  breadcrumbRenderer this = None
  ∧ currentBreadcrumbRenderer this = None
  ∧ strictEq (last (items this)) first = false
  ∧ (wrappedBreadcrumb (result (renderBreadcrumbWrapper this first 0))
       ≫= λ b, prop b "current") = Some (PV (JBool true))
  ∧ prop (result (renderBreadcrumb this first false)) "current"
    ≠ Some (PV (JBool false)).
Proof. vm_compute. repeat split; congruence. Qed.

(** ** Overflow menu entries *)

(** C5, as amended.  For every entry [renderOverflowBreadcrumb] builds, with
    the helper of the core package: the element is a [MenuItem2] keyed by
    the index; the label of the descriptor, when it has one, is passed
    explicitly as its [text]; every attribute of the descriptor that has a
    defined value and whose name is neither one of the non-HTML names that
    [removeNonHTMLProps] removes nor reserved by React reaches the element
    unchanged; the non-HTML attributes [current], [icon] and [intent] of the
    descriptor are not passed on. *)
Theorem renderOverflowBreadcrumb_passes_attributes props index :
  elemType (@renderOverflowBreadcrumb exampleCore props index) = MenuItem2
  ∧ elemKey (@renderOverflowBreadcrumb exampleCore props index) = Some index
  ∧ (∀ v, own props !! "text" = Some v → v ≠ JUndefined →
       prop (@renderOverflowBreadcrumb exampleCore props index) "text"
       = Some (PV v))
  ∧ (∀ k v, k ∉ INVALID_PROPS → k ∉ reservedProps →
       own props !! k = Some v → v ≠ JUndefined →
       prop (@renderOverflowBreadcrumb exampleCore props index) k = Some (PV v))
  ∧ (∀ k, k ∈ ["current"; "icon"; "intent"] →
       prop (@renderOverflowBreadcrumb exampleCore props index) k = None).
Proof.
  split; [reflexivity|]. split; [reflexivity|]. split; [|split].
  - intros v Hv _. rewrite prop_renderOverflowBreadcrumb_text.
    unfold get. by rewrite Hv.
  - intros k v Hk _ Hv _.
    assert (k ≠ "text") as Ht.
    { intros ->. apply Hk. unfold INVALID_PROPS. set_solver. }
    rewrite prop_renderOverflowBreadcrumb_other by done.
    cbn [removeNonHTMLProps exampleCore]. unfold removeNonHTMLProps_spec.
    by rewrite lookup_foldr_delete_not_elem_of, Hv.
  - intros k Hk.
    assert (k ≠ "text" ∧ k ≠ "disabled" ∧ k ∈ INVALID_PROPS) as (Ht & Hd & Hin).
    { repeat (apply elem_of_cons in Hk as [->|Hk];
              [repeat split; [discriminate|discriminate|];
               unfold INVALID_PROPS; set_solver|]).
      by apply elem_of_nil in Hk. }
    rewrite prop_renderOverflowBreadcrumb_other by done.
    cbn [removeNonHTMLProps exampleCore]. unfold removeNonHTMLProps_spec.
    rewrite lookup_foldr_delete by done. by rewrite decide_False.
Qed.

Lemma renderOverflowBreadcrumb_passes_attributes_witness :
  prop (@renderOverflowBreadcrumb exampleCore
          (mkBreadcrumbProps 1
             {["text" := JStr "1"; "href" := JStr "/one"; "target" := JStr "_blank"]}) 0)
       "target"
  = Some (PV (JStr "_blank")).
Proof.
  apply (proj1 (proj2 (proj2 (proj2
    (renderOverflowBreadcrumb_passes_attributes _ 0))))).
  - refine (bool_decide_unpack _ _). vm_compute. exact I.
  - refine (bool_decide_unpack _ _). vm_compute. exact I.
  - reflexivity.
  - discriminate.
Defined.

(** C5, as stated, fails: a descriptor with the display attributes [icon]
    and [intent] next to its label is rendered as an entry that has neither;
    only the label arrives, as [text]. *)
Lemma renderOverflowBreadcrumb_drops_icon :
  let props := mkBreadcrumbProps 1
    {["text" := JStr "1"; "icon" := JStr "folder"; "intent" := JStr "primary"]} in
  own props !! "icon" = Some (JStr "folder")
  ∧ prop (@renderOverflowBreadcrumb exampleCore props 0) "icon" = None
  ∧ own props !! "intent" = Some (JStr "primary")
  ∧ prop (@renderOverflowBreadcrumb exampleCore props 0) "intent" = None
  ∧ prop (@renderOverflowBreadcrumb exampleCore props 0) "text" = Some (PV (JStr "1")).
Proof. vm_compute. repeat split. Qed.

Section OverflowEntries.
Context `{BlueprintCore}.


(** A [disabled] attribute that survives [removeNonHTMLProps] replaces the
    computed one. *)
Lemma renderOverflowBreadcrumb_disabled_superseded props index v :
  removeNonHTMLProps (own props) !! "disabled" = Some v →
  prop (renderOverflowBreadcrumb props index) "disabled" = Some (PV v).
Proof.
  intros Hd. rewrite prop_renderOverflowBreadcrumb_other by discriminate.
  by rewrite Hd.
Qed.

End OverflowEntries.



(** ** The overflow indicator *)

Lemma popoverPropsTyped_testPopoverProps collapseFrom items :
  popoverPropsTyped (collapsing collapseFrom items testPopoverProps).
Proof. repeat constructor. Defined.

Section Overflow.
Context `{BlueprintCore}.

Lemma result_mountOverflowList this fit :
  result (mountOverflowList this fit)
  = match receivedCollapseFrom (elemProps (render this)) with
    | START =>
        (if bool_decide (overflowItems this fit = []) then []
         else [renderOverflow this (overflowItems this fit)])
        ++ result (renderVisible this (visibleItems this fit))
    | END =>
        result (renderVisible this (visibleItems this fit))
        ++ (if bool_decide (overflowItems this fit = []) then []
            else [renderOverflow this (overflowItems this fit)])
    end.
Proof. reflexivity. Qed.

(** The labels of the entries built from a list of descriptors. *)
Lemma entry_texts (l : list BreadcrumbProps) :
  (λ entry, prop entry "text")
    <$> imap (λ index props, renderOverflowBreadcrumb props index) l
  = (λ props, Some (PV (get (own props) "text"))) <$> l.
Proof.
  rewrite fmap_imap, <- imap_const. apply imap_ext.
  intros i x _. apply prop_renderOverflowBreadcrumb_text.
Qed.

(** C10.  For every overflowed list given to [renderOverflow], with
    [popoverProps] of its declared type: the [li] it returns holds a
    [Popover2] whose [disabled] prop is [true] exactly when the list is
    empty. *)
Theorem renderOverflow_popover_disabled this overflowed :
  popoverPropsTyped this →
  ∃ popover,
    overflowPopover (renderOverflow this overflowed) = Some popover
    ∧ elemType popover = Popover2
    ∧ prop popover "disabled"
      = Some (PV (JBool (bool_decide (length overflowed = 0))))
    ∧ (prop popover "disabled" = Some (PV (JBool true)) ↔ length overflowed = 0).
Proof.
  intros Ht.
  destruct (overflowPopover_renderOverflow this overflowed) as (pop & Hpop & Hty & Hprops).
  assert (prop pop "disabled"
          = Some (PV (JBool (bool_decide (length overflowed = 0))))) as Heq.
  { rewrite Hprops by discriminate.
    rewrite (popoverPropsTyped_lookup this "disabled" Ht)
      by (unfold popoverPropsOmitted; set_solver).
    rewrite lookup_insert_ne by discriminate.
    by rewrite lookup_insert_eq, length_orderedItems. }
  exists pop. repeat split; try done.
  - rewrite Heq. intros [= Hb]. by apply bool_decide_eq_true in Hb.
  - intros Hl. rewrite Heq. by rewrite bool_decide_eq_true_2.
Qed.

(** C2.  With [popoverProps] of its declared type, the menu entries that
    [renderOverflow] builds are [renderOverflowBreadcrumb] mapped over the
    reversal of the overflowed subsequence when [collapseFrom] is [START],
    and over the subsequence as given when it is [END].  In particular,
    for the three items labelled 1, 2, 3 in a container that admits one of
    them, the labels of the overflow menu read 2, 1 under [START], which is
    also the default, and 2, 3 under [END]. *)
Theorem renderOverflow_menu_order :
  (∀ this overflowed,
     popoverPropsTyped this →
     (collapseFrom this = Some START →
      overflowMenuEntries (renderOverflow this overflowed)
      = imap (λ index props, renderOverflowBreadcrumb props index)
          (reverse overflowed))
     ∧ (collapseFrom this = Some END →
        overflowMenuEntries (renderOverflow this overflowed)
        = imap (λ index props, renderOverflowBreadcrumb props index) overflowed))
  ∧ (∀ collapseFrom, collapseFrom = None ∨ collapseFrom = Some START →
     visibleItems (withDefaultProps (collapsing collapseFrom ITEMS testPopoverProps)) 1
     = drop 2 ITEMS
     ∧ (λ entry, prop entry "text")
         <$> flat_map overflowMenuEntries
               (result (Breadcrumbs2 (collapsing collapseFrom ITEMS testPopoverProps) 1))
       = [Some (PV (JStr "2")); Some (PV (JStr "1"))])
  ∧ (visibleItems (withDefaultProps (collapsing (Some END) ITEMS testPopoverProps)) 1
     = take 1 ITEMS
     ∧ (λ entry, prop entry "text")
         <$> flat_map overflowMenuEntries
               (result (Breadcrumbs2 (collapsing (Some END) ITEMS testPopoverProps) 1))
       = [Some (PV (JStr "2")); Some (PV (JStr "3"))]).
Proof.
  split; [|split].
  - intros this overflowed Ht.
    split; intros Hc; rewrite overflowMenuEntries_renderOverflow by done;
      unfold orderedItems; by rewrite Hc.
  - intros collapseFrom Hc. split; [by destruct Hc as [-> | ->]|].
    unfold Breadcrumbs2. rewrite result_mountOverflowList.
    replace (overflowItems _ 1) with (take 2 ITEMS)
      by (by destruct Hc as [-> | ->]).
    replace (receivedCollapseFrom _) with START
      by (by destruct Hc as [-> | ->]).
    rewrite bool_decide_eq_false_2 by discriminate.
    cbn [app flat_map]. rewrite fmap_app.
    rewrite overflowMenuEntries_renderOverflow
      by apply popoverPropsTyped_testPopoverProps.
    replace (orderedItems _ (take 2 ITEMS)) with (reverse (take 2 ITEMS))
      by (by destruct Hc as [-> | ->]).
    rewrite entry_texts.
    by destruct Hc as [-> | ->].
  - split; [done|].
    unfold Breadcrumbs2. rewrite result_mountOverflowList.
    replace (overflowItems _ 1) with (drop 1 ITEMS) by done.
    replace (receivedCollapseFrom _) with END by done.
    rewrite bool_decide_eq_false_2 by discriminate.
    rewrite flat_map_app, fmap_app. cbn [flat_map].
    rewrite app_nil_r.
    rewrite overflowMenuEntries_renderOverflow
      by apply popoverPropsTyped_testPopoverProps.
    by rewrite entry_texts.
Qed.

(** C8.  The overflow path never reaches a renderer of the caller and never
    computes a current flag: every renderer call of a whole pass is made on
    the visible path; with [popoverProps] of its declared type the entries
    of the overflow menu are [renderOverflowBreadcrumb] applied to the
    overflowed descriptors, the last item of [items] included; and such an
    entry is a [MenuItem2] that has, apart from [text] and the computed
    [disabled], exactly the attributes [removeNonHTMLProps] leaves of the
    descriptor, whatever [items] and the two renderers are. *)
Theorem overflow_path_ignores_current this fit overflowed :
  popoverPropsTyped this →
  calls (mountOverflowList this fit) = calls (renderVisible this (visibleItems this fit))
  ∧ overflowMenuEntries (renderOverflow this overflowed)
    = imap (λ index props, renderOverflowBreadcrumb props index)
        (orderedItems this overflowed)
  ∧ ∀ props index,
      elemType (renderOverflowBreadcrumb props index) = MenuItem2
      ∧ ∀ k, k ≠ "text" → k ≠ "disabled" →
          prop (renderOverflowBreadcrumb props index) k
          = PV <$> removeNonHTMLProps (own props) !! k.
Proof.
  intros Ht. split; [|split].
  - unfold mountOverflowList, calls, mbind, Render_bind, mret, Render_ret; cbn.
    apply app_nil_r.
  - by apply overflowMenuEntries_renderOverflow.
  - intros props index. split; [reflexivity|].
    intros k Hk Hd. rewrite prop_renderOverflowBreadcrumb_other by done.
    destruct (removeNonHTMLProps (own props) !! k); [done|].
    by rewrite decide_False.
Qed.

End Overflow.

Lemma renderOverflow_popover_disabled_witness :
  popoverPropsTyped (collapsing None ITEMS testPopoverProps)
  ∧ ∃ popover,
      overflowPopover (@renderOverflow exampleCore
        (collapsing None ITEMS testPopoverProps) []) = Some popover
      ∧ elemType popover = Popover2
      ∧ prop popover "disabled" = Some (PV (JBool (bool_decide (length (@nil BreadcrumbProps) = 0))))
      ∧ (prop popover "disabled" = Some (PV (JBool true))
         ↔ length (@nil BreadcrumbProps) = 0).
Proof.
  split; [apply popoverPropsTyped_testPopoverProps|].
  apply (@renderOverflow_popover_disabled exampleCore).
  apply popoverPropsTyped_testPopoverProps.
Defined.

Lemma renderOverflow_menu_order_witness :
  popoverPropsTyped (collapsing (Some START) ITEMS testPopoverProps)
  ∧ overflowMenuEntries (@renderOverflow exampleCore
      (collapsing (Some START) ITEMS testPopoverProps) (take 2 ITEMS))
    = imap (λ index props, @renderOverflowBreadcrumb exampleCore props index)
        (reverse (take 2 ITEMS)).
Proof.
  split; [apply popoverPropsTyped_testPopoverProps|].
  apply (proj1 (@renderOverflow_menu_order exampleCore));
    [apply popoverPropsTyped_testPopoverProps | reflexivity].
Defined.

Lemma overflow_path_ignores_current_witness :
  popoverPropsTyped (collapsing None ITEMS testPopoverProps)
  ∧ overflowMenuEntries (@renderOverflow exampleCore
      (collapsing None ITEMS testPopoverProps) ITEMS)
    = imap (λ index props, @renderOverflowBreadcrumb exampleCore props index)
        (orderedItems (collapsing None ITEMS testPopoverProps) ITEMS).
Proof.
  split; [apply popoverPropsTyped_testPopoverProps|].
  apply (@overflow_path_ignores_current exampleCore _ 0 ITEMS).
  apply popoverPropsTyped_testPopoverProps.
Defined.

(** ** The props handed to the overflow list *)

Section RenderProps.
Context `{BlueprintCore}.

Lemma prop_render_fixed this :
  prop (render this) "items" = Some (PItems (items this))
  ∧ prop (render this) "overflowRenderer" = Some (PMethod RenderOverflow)
  ∧ prop (render this) "visibleItemRenderer" = Some (PMethod RenderBreadcrumbWrapper).
Proof.
  unfold prop, render, jsx; cbn [foldl applyAttr elemProps].
  repeat split.
  - by rewrite !lookup_insert_ne, lookup_insert_eq by discriminate.
  - by rewrite lookup_insert_ne, lookup_insert_eq by discriminate.
  - by rewrite lookup_insert_eq.
Qed.

Lemma prop_render_className this :
  prop (render this) "className"
  = Some (PV (JStr (classNames
      [Some BREADCRUMBS;
       match default ∅ (overflowListProps this) !! "className" with
       | Some (PV (JStr s)) => Some s
       | _ => None
       end;
       className this]))).
Proof.
  unfold prop, render, jsx; cbn [foldl applyAttr elemProps].
  by rewrite !lookup_insert_ne, lookup_insert_eq by discriminate.
Qed.

(** Every other prop is the one of [overflowListProps] when it has one, and
    the controller's [collapseFrom], [minVisibleItems] or [tagName]
    otherwise. *)
Lemma prop_render_other this k :
  k ∉ overflowListPropsOmitted → k ≠ "className" →
  prop (render this) k
  = match default ∅ (overflowListProps this) !! k with
    | Some v => Some v
    | None =>
        (<["tagName" := PV (JStr "ul")]>
         (<["minVisibleItems" :=
              orUndefined ((λ n, PV (JNum (Z.of_nat n))) <$> minVisibleItems this)]>
         (<["collapseFrom" := orUndefined (PBoundary <$> collapseFrom this)]>
            (∅ : gmap string PropValue)))) !! k
    end.
Proof.
  intros Hk Hc. unfold overflowListPropsOmitted in Hk.
  unfold prop, render, jsx; cbn [foldl applyAttr elemProps].
  rewrite !lookup_insert_ne by set_solver.
  rewrite lookup_union.
  destruct (default ∅ (overflowListProps this) !! k) as [v|].
  - match goal with |- Some _ ∪ ?o = _ => by destruct o end.
  - match goal with |- None ∪ ?o = _ => by destruct o end.
Qed.

(** C9, as amended.  Whatever [overflowListProps] holds, the [items],
    [overflowRenderer] and [visibleItemRenderer] that [render] gives the
    overflow list are the caller's items and the controller's two bound
    methods; every field of [overflowListProps] other than these three and
    [className] is forwarded unchanged; [className] is not forwarded as it
    is but merged: the overflow list receives the base class, the class of
    [overflowListProps] and the component's own class, joined. *)
Theorem render_overflowListProps this :
  elemType (render this) = OverflowList
  ∧ prop (render this) "items" = Some (PItems (items this))
  ∧ prop (render this) "overflowRenderer" = Some (PMethod RenderOverflow)
  ∧ prop (render this) "visibleItemRenderer" = Some (PMethod RenderBreadcrumbWrapper)
  ∧ (∀ k v, k ∉ overflowListPropsOmitted → k ≠ "className" →
       default ∅ (overflowListProps this) !! k = Some v →
       prop (render this) k = Some v)
  ∧ prop (render this) "className"
    = Some (PV (JStr (classNames
        [Some BREADCRUMBS;
         match default ∅ (overflowListProps this) !! "className" with
         | Some (PV (JStr s)) => Some s
         | _ => None
         end;
         className this]))).
Proof.
  destruct (prop_render_fixed this) as (Hi & Ho & Hv).
  repeat split; try done.
  - intros k v Hk Hc Hl. by rewrite prop_render_other, Hl.
  - apply prop_render_className.
Qed.

End RenderProps.

Lemma render_overflowListProps_witness :
  prop (@render exampleCore passThroughProps) "tagName" = Some (PV (JStr "article")).
Proof.
  apply (proj1 (proj2 (proj2 (proj2 (proj2
    (@render_overflowListProps exampleCore passThroughProps)))))).
  - unfold overflowListPropsOmitted. intros Hin.
    repeat (apply elem_of_cons in Hin as [Hin|Hin]; [discriminate Hin|]).
    by apply elem_of_nil in Hin.
  - discriminate.
  - reflexivity.
Defined.

(** C9, as stated, fails on the props of the test suite:
    [overflowListProps] carries [className: "overflow-list-class"], and the
    overflow list receives another [className], the merged one, while
    [tagName] is forwarded as it is. *)
Lemma render_className_not_forwarded :
  default ∅ (overflowListProps passThroughProps) !! "className"
  = Some (PV (JStr "overflow-list-class"))
  ∧ ("className" ∉ overflowListPropsOmitted)
  ∧ prop (@render exampleCore passThroughProps) "className"
    = Some (PV (JStr "bp4-breadcrumbs overflow-list-class breadcrumbs-class"))
  ∧ prop (@render exampleCore passThroughProps) "className"
    ≠ (default ∅ (overflowListProps passThroughProps) !! "className").
Proof.
  split; [reflexivity|]. split.
  - unfold overflowListPropsOmitted. intros Hin.
    repeat (apply elem_of_cons in Hin as [Hin|Hin]; [discriminate Hin|]).
    by apply elem_of_nil in Hin.
  - split; [reflexivity|]. vm_compute. congruence.
Qed.

(** ** The visible path *)

Section RenderLog.
Context {A B : Type}.

Lemma result_mapRenderFrom (f : A → nat → Render B) i l :
  result (mapRenderFrom f i l) = imap (λ j x, result (f x (i + j))) l.
Proof.
  revert i. induction l as [|x l IH]; intros i; [reflexivity|].
  cbn [mapRenderFrom]. rewrite imap_cons.
  unfold result, mbind, Render_bind, mret, Render_ret in *; cbn.
  rewrite IH, Nat.add_0_r. f_equal. apply imap_ext. intros j y _; cbn.
  f_equal. f_equal. lia.
Qed.

Lemma calls_mapRenderFrom (f : A → nat → Render B) i l :
  calls (mapRenderFrom f i l) = mjoin (imap (λ j x, calls (f x (i + j))) l).
Proof.
  revert i. induction l as [|x l IH]; intros i; [reflexivity|].
  cbn [mapRenderFrom]. rewrite imap_cons.
  unfold calls, mbind, Render_bind, mret, Render_ret in *; cbn.
  rewrite app_nil_r, IH, Nat.add_0_r. f_equal. f_equal.
  apply imap_ext. intros j y _; cbn. f_equal. f_equal. lia.
Qed.

End RenderLog.

(** The last of [init ++ [last]] is recognised by identity: items before it
    pass the test exactly when they are the same object. *)
Lemma strictEq_last init final props :
  strictEq (last (init ++ [final])) props = bool_decide (addr final = addr props).
Proof. by rewrite last_snoc. Qed.

Lemma strictEq_last_init (init : list BreadcrumbProps) final :
  Forall (λ props, addr props ≠ addr final) init →
  (λ props, strictEq (last (init ++ [final])) props) <$> (init ++ [final])
  = replicate (length init) false ++ [true].
Proof.
  intros Hd.
  transitivity ((λ props, bool_decide (addr final = addr props)) <$> (init ++ [final])).
  { apply list_fmap_ext. intros _ props _. apply strictEq_last. }
  rewrite fmap_app. cbn [fmap list_fmap].
  rewrite bool_decide_eq_true_2 by done. f_equal.
  induction Hd as [|p l Hp _ IH]; [reflexivity|].
  cbn. rewrite bool_decide_eq_false_2 by congruence.
  by f_equal.
Qed.

Lemma result_renderBreadcrumbWrapper this props index :
  result (renderBreadcrumbWrapper this props index)
  = jsx (Host "li") (Some index)
      [children (PElement (result (renderBreadcrumb this props
         (strictEq (last (items this)) props))))].
Proof. reflexivity. Qed.

Lemma calls_renderBreadcrumbWrapper this props index :
  calls (renderBreadcrumbWrapper this props index)
  = calls (renderBreadcrumb this props (strictEq (last (items this)) props)).
Proof.
  unfold renderBreadcrumbWrapper, calls, mbind, Render_bind, mret, Render_ret; cbn.
  apply app_nil_r.
Qed.

Lemma calls_renderBreadcrumb this props isCurrent :
  calls (renderBreadcrumb this props isCurrent)
  = match (if isCurrent then currentBreadcrumbRenderer this else None) with
    | Some _ => [CallCurrentBreadcrumbRenderer props]
    | None =>
        match breadcrumbRenderer this with
        | Some _ => [CallBreadcrumbRenderer props]
        | None => []
        end
    end.
Proof.
  unfold renderBreadcrumb.
  destruct (if isCurrent then currentBreadcrumbRenderer this else None); [done|].
  by destruct (breadcrumbRenderer this).
Qed.

(** The log of the visible path: one entry per position, in order. *)
Lemma calls_renderVisible this visible :
  calls (renderVisible this visible)
  = mjoin ((λ props, calls (renderBreadcrumb this props
              (strictEq (last (items this)) props))) <$> visible).
Proof.
  unfold renderVisible, mapRender. rewrite calls_mapRenderFrom. f_equal.
  rewrite <- imap_const. apply imap_ext. intros j x _.
  apply calls_renderBreadcrumbWrapper.
Qed.

Lemma markedCurrent_renderBreadcrumbWrapper this props index :
  breadcrumbRenderer this = None →
  currentBreadcrumbRenderer this = None →
  own props !! "current" = None →
  markedCurrent (result (renderBreadcrumbWrapper this props index))
  = strictEq (last (items this)) props.
Proof.
  intros Hb Hc Ho.
  rewrite result_renderBreadcrumbWrapper, renderBreadcrumb_default by done.
  unfold markedCurrent, wrappedBreadcrumb, onlyChild.
  unfold prop at 2, jsx at 1, children; cbn [foldl applyAttr elemProps].
  rewrite lookup_insert_eq. cbn [mbind option_bind].
  unfold result, mret, Render_ret; cbn [fst].
  rewrite prop_default_breadcrumb, Ho. by destruct (strictEq _ _).
Qed.

Lemma timesCalled_app which l1 l2 :
  timesCalled which (l1 ++ l2) = timesCalled which l1 + timesCalled which l2.
Proof. unfold timesCalled. by rewrite filter_app, length_app. Qed.

Lemma timesCalled_breadcrumbRenderer_fmap l :
  timesCalled isBreadcrumbRendererCall (CallBreadcrumbRenderer <$> l) = length l
  ∧ timesCalled isCurrentBreadcrumbRendererCall (CallBreadcrumbRenderer <$> l) = 0.
Proof.
  unfold timesCalled. induction l as [|x l [IH1 IH2]]; [done|].
  cbn [fmap list_fmap]. split.
  - rewrite filter_cons_True by done. cbn. by f_equal.
  - by rewrite filter_cons_False.
Qed.

Lemma mapRenderFrom_ext {A B} (f g : A → nat → Render B) i l :
  (∀ j x, l !! j = Some x → f x (i + j) = g x (i + j)) →
  mapRenderFrom f i l = mapRenderFrom g i l.
Proof.
  revert i. induction l as [|x l IH]; intros i Hfg; [reflexivity|].
  cbn [mapRenderFrom].
  specialize (Hfg 0 x eq_refl) as Hx. rewrite Nat.add_0_r in Hx. rewrite Hx.
  rewrite (IH (S i)); [reflexivity|].
  intros j y Hy. replace (S i + j) with (i + S j) by lia. by apply Hfg.
Qed.

Section VisiblePath.
Context `{BlueprintCore}.

(** A minimum visible count that covers all items, and that
    [overflowListProps] does not replace, keeps every item visible. *)
Lemma visibleItems_all this fit n :
  minVisibleItems this = Some n →
  (length (items this) ≤ n)%nat →
  default ∅ (overflowListProps this) !! "minVisibleItems" = None →
  visibleItems this fit = items this ∧ overflowItems this fit = [].
Proof.
  intros Hn Hle Ho.
  assert (receivedItems (elemProps (render this)) = items this) as Hitems.
  { unfold receivedItems. destruct (prop_render_fixed this) as (Hi & _).
    unfold prop in Hi. by rewrite Hi. }
  assert (receivedMinVisibleItems (elemProps (render this)) = n) as Hmin.
  { unfold receivedMinVisibleItems.
    pose proof (prop_render_other this "minVisibleItems") as Hp.
    unfold prop in Hp. rewrite Hp.
    - rewrite Ho, Hn. rewrite lookup_insert_ne by discriminate.
      rewrite lookup_insert_eq. cbn. apply Nat2Z.id.
    - unfold overflowListPropsOmitted. intros Hin.
      repeat (apply elem_of_cons in Hin as [Hin|Hin]; [discriminate Hin|]).
      by apply elem_of_nil in Hin.
    - discriminate. }
  unfold visibleItems, overflowItems. rewrite Hitems, Hmin.
  replace (visibleCount n fit (length (items this))) with (length (items this))
    by (unfold visibleCount; lia).
  unfold partitionItems. destruct (receivedCollapseFrom _); cbn [fst snd].
  - by rewrite Nat.sub_diag.
  - by rewrite firstn_all, drop_all.
Qed.

Lemma mountOverflowList_all_visible this fit :
  visibleItems this fit = items this → overflowItems this fit = [] →
  mountOverflowList this fit = renderVisible this (items this).
Proof.
  intros Hv Ho. unfold mountOverflowList. rewrite Hv, Ho.
  destruct (renderVisible this (items this)) as [wrappers log].
  unfold mbind, Render_bind, mret, Render_ret; cbn.
  rewrite app_nil_r. by destruct (receivedCollapseFrom _); rewrite ?app_nil_r.
Qed.

Lemma calls_mountOverflowList this fit :
  calls (mountOverflowList this fit) = calls (renderVisible this (visibleItems this fit)).
Proof.
  unfold mountOverflowList, calls, mbind, Render_bind, mret, Render_ret; cbn.
  apply app_nil_r.
Qed.

(** C3, as amended.  Take a non-empty [items] whose last descriptor is an
    object that occurs at no earlier position, and a [minVisibleItems] that
    covers all items and is not replaced through [overflowListProps].  Then
    all items are rendered through the visible path, and the pass treats the
    item at the last position, and no other, as current: it is the pass in
    which [renderBreadcrumb] gets [isCurrent = true] at the last index only.
    With the default breadcrumb element (no renderer supplied) and
    descriptors without a [current] field of their own, exactly one rendered
    breadcrumb is marked current, the last. *)
Theorem last_breadcrumb_is_current this fit init final n :
  items this = init ++ [final] →
  Forall (λ props, addr props ≠ addr final) init →
  minVisibleItems this = Some n →
  (length (items this) ≤ n)%nat →
  default ∅ (overflowListProps this) !! "minVisibleItems" = None →
  visibleItems this fit = items this
  ∧ mountOverflowList this fit
    = mapRender (λ props index,
        e ← renderBreadcrumb this props (bool_decide (index = length init));
        mret (jsx (Host "li") (Some index) [children (PElement e)]))
        (items this)
  ∧ (breadcrumbRenderer this = None →
     currentBreadcrumbRenderer this = None →
     Forall (λ props, own props !! "current" = None) (items this) →
     markedCurrent <$> result (mountOverflowList this fit)
     = replicate (length init) false ++ [true]).
Proof.
  intros Hitems Hd Hn Hle Ho.
  destruct (visibleItems_all this fit n Hn Hle Ho) as [Hv Hov].
  split; [done|].
  rewrite (mountOverflowList_all_visible this fit Hv Hov).
  pose proof (strictEq_last_init init final Hd) as Hflags.
  rewrite <- Hitems in Hflags.
  split.
  - unfold renderVisible, mapRender. apply mapRenderFrom_ext.
    intros j x Hx; cbn. unfold renderBreadcrumbWrapper.
    replace (strictEq (last (items this)) x) with (bool_decide (j = length init));
      [reflexivity|].
    apply (f_equal (λ l, l !! j)) in Hflags.
    rewrite list_lookup_fmap, Hx in Hflags. cbn in Hflags.
    apply lookup_lt_Some in Hx as Hlt.
    rewrite Hitems, length_app in Hlt; cbn in Hlt.
    destruct (decide (j = length init)) as [->|Hne].
    + rewrite lookup_app_r, length_replicate, Nat.sub_diag in Hflags
        by (rewrite length_replicate; lia).
      injection Hflags as ->. by rewrite bool_decide_eq_true_2.
    + rewrite lookup_app_l in Hflags by (rewrite length_replicate; lia).
      rewrite lookup_replicate_2 in Hflags by lia.
      injection Hflags as ->. by rewrite bool_decide_eq_false_2.
  - intros Hb Hc Hcur.
    unfold renderVisible, mapRender. rewrite result_mapRenderFrom, fmap_imap.
    rewrite <- Hflags, <- imap_const. apply imap_ext. intros j x Hx; cbn.
    apply markedCurrent_renderBreadcrumbWrapper; [done|done|].
    apply (proj1 (Forall_forall _ _) Hcur). by eapply list_elem_of_lookup_2.
Qed.

End VisiblePath.

Lemma last_breadcrumb_is_current_witness :
  markedCurrent <$> result (@mountOverflowList exampleCore (allVisible None None ITEMS) 0)
  = [false; false; true].
Proof.
  apply (proj2 (proj2 (@last_breadcrumb_is_current exampleCore
    (allVisible None None ITEMS) 0 (take 2 ITEMS)
    (mkBreadcrumbProps 3 {["text" := JStr "3"]}) 3
    eq_refl
    ltac:(repeat constructor; discriminate)
    eq_refl
    ltac:(cbn; lia)
    eq_refl)));
    [reflexivity | reflexivity | repeat constructor].
Defined.

(** C3, as stated, fails in two ways, each with [minVisibleItems] equal to
    the number of items and no renderer supplied.  When the same object is
    the first and the last of three items, two rendered breadcrumbs are
    marked current.  When the first of two distinct descriptors carries
    [current: true], both rendered breadcrumbs are marked current. *)
Lemma two_breadcrumbs_marked_current :
  (minVisibleItems (allVisible None None homeTwice) = Some (length homeTwice)
   ∧ @visibleItems exampleCore (withDefaultProps (allVisible None None homeTwice)) 0
     = homeTwice
   ∧ markedCurrent
       <$> result (@Breadcrumbs2 exampleCore (allVisible None None homeTwice) 0)
     = [true; false; true]
   ∧ length (filter (λ li, markedCurrent li = true)
       (result (@Breadcrumbs2 exampleCore (allVisible None None homeTwice) 0))) = 2)
  ∧ (minVisibleItems (allVisible None None currentFirst) = Some (length currentFirst)
     ∧ @visibleItems exampleCore (withDefaultProps (allVisible None None currentFirst)) 0
       = currentFirst
     ∧ markedCurrent
         <$> result (@Breadcrumbs2 exampleCore (allVisible None None currentFirst) 0)
       = [true; true]).
Proof. vm_compute. repeat split. Qed.

Lemma join_singletons {A B} (f : A → B) (l : list A) :
  mjoin ((λ x, [f x]) <$> l) = f <$> l.
Proof. induction l as [|x l IH]; [reflexivity|]. cbn. by f_equal. Qed.

Section RendererCalls.
Context `{BlueprintCore}.

Lemma calls_init this init final renderer :
  items this = init ++ [final] →
  Forall (λ props, addr props ≠ addr final) init →
  breadcrumbRenderer this = Some renderer →
  mjoin ((λ props, calls (renderBreadcrumb this props
            (strictEq (last (items this)) props))) <$> init)
  = CallBreadcrumbRenderer <$> init.
Proof.
  intros Hitems Hd Hb. rewrite Hitems.
  rewrite (list_fmap_ext _ (λ props, [CallBreadcrumbRenderer props]) init).
  - apply join_singletons.
  - intros i p Hp. apply list_elem_of_lookup_2 in Hp.
    rewrite calls_renderBreadcrumb, strictEq_last, Hb.
    rewrite bool_decide_eq_false_2; [reflexivity|].
    intros Heq. by apply (proj1 (Forall_forall _ _) Hd p Hp).
Qed.

(** C4, as amended.  Take a non-empty [items] whose last descriptor is an
    object that occurs at no earlier position, both renderers supplied and
    all items rendered through the visible path.  Then
    [currentBreadcrumbRenderer] is called exactly once, with the last
    descriptor, and [breadcrumbRenderer] exactly [items.length - 1] times,
    once for each earlier descriptor in order and never with the last. *)
Theorem renderers_split_at_last this fit init final renderer currentRenderer :
  items this = init ++ [final] →
  Forall (λ props, addr props ≠ addr final) init →
  breadcrumbRenderer this = Some renderer →
  currentBreadcrumbRenderer this = Some currentRenderer →
  visibleItems this fit = items this →
  calls (mountOverflowList this fit)
  = (CallBreadcrumbRenderer <$> init) ++ [CallCurrentBreadcrumbRenderer final]
  ∧ timesCalled isCurrentBreadcrumbRendererCall (calls (mountOverflowList this fit)) = 1
  ∧ (∀ c, c ∈ calls (mountOverflowList this fit) →
       isCurrentBreadcrumbRendererCall c = true → callArg c = final)
  ∧ timesCalled isBreadcrumbRendererCall (calls (mountOverflowList this fit))
    = length (items this) - 1
  ∧ (∀ c, c ∈ calls (mountOverflowList this fit) →
       isBreadcrumbRendererCall c = true → addr (callArg c) ≠ addr final).
Proof.
  intros Hitems Hd Hb Hc Hv.
  assert (calls (mountOverflowList this fit)
          = (CallBreadcrumbRenderer <$> init) ++ [CallCurrentBreadcrumbRenderer final])
    as Hlog.
  { rewrite calls_mountOverflowList, Hv, calls_renderVisible.
    set (f := λ props, calls (renderBreadcrumb this props
                          (strictEq (last (items this)) props))).
    rewrite Hitems, fmap_app, join_app. subst f.
    rewrite (calls_init this init final renderer) by done.
    cbn [fmap list_fmap mjoin list_join]. rewrite app_nil_r.
    rewrite calls_renderBreadcrumb, Hitems, strictEq_last, Hc.
    by rewrite bool_decide_eq_true_2. }
  destruct (timesCalled_breadcrumbRenderer_fmap init) as [Hgen Hcur].
  rewrite Hlog. repeat split.
  - rewrite timesCalled_app, Hcur. reflexivity.
  - intros c Hin Hc'. apply elem_of_app in Hin as [Hin|Hin].
    + apply list_elem_of_fmap in Hin as (p & -> & _). discriminate.
    + apply list_elem_of_singleton in Hin as ->. reflexivity.
  - rewrite timesCalled_app, Hgen, Hitems, length_app.
    change (timesCalled isBreadcrumbRendererCall [CallCurrentBreadcrumbRenderer final])
      with 0.
    cbn. lia.
  - intros c Hin Hc'. apply elem_of_app in Hin as [Hin|Hin].
    + apply list_elem_of_fmap in Hin as (p & -> & Hp). cbn.
      by apply (proj1 (Forall_forall _ _) Hd).
    + apply list_elem_of_singleton in Hin as ->. discriminate.
Qed.

(** C7.  With [breadcrumbRenderer] supplied, no [currentBreadcrumbRenderer]
    and all items rendered through the visible path, the renderer calls of
    the pass are one call of [breadcrumbRenderer] per item, in order, each
    with the descriptor at that position: [items.length] calls, the one for
    the final position being the call with the final descriptor. *)
Theorem breadcrumbRenderer_called_for_every_item this fit renderer :
  breadcrumbRenderer this = Some renderer →
  currentBreadcrumbRenderer this = None →
  visibleItems this fit = items this →
  calls (mountOverflowList this fit) = CallBreadcrumbRenderer <$> items this
  ∧ timesCalled isBreadcrumbRendererCall (calls (mountOverflowList this fit))
    = length (items this)
  ∧ (∀ i, calls (mountOverflowList this fit) !! i
          = CallBreadcrumbRenderer <$> items this !! i)
  ∧ (∀ init final, items this = init ++ [final] →
       calls (mountOverflowList this fit)
       = (CallBreadcrumbRenderer <$> init) ++ [CallBreadcrumbRenderer final]).
Proof.
  intros Hb Hc Hv.
  assert (calls (mountOverflowList this fit) = CallBreadcrumbRenderer <$> items this)
    as Hlog.
  { rewrite calls_mountOverflowList, Hv, calls_renderVisible.
    rewrite (list_fmap_ext _ (λ props, [CallBreadcrumbRenderer props]) (items this)).
    - apply join_singletons.
    - intros i p _. rewrite calls_renderBreadcrumb, Hc, Hb.
      by destruct (strictEq _ _). }
  rewrite Hlog. repeat split.
  - apply timesCalled_breadcrumbRenderer_fmap.
  - intros i. apply list_lookup_fmap.
  - intros init final ->. by rewrite fmap_app.
Qed.

End RendererCalls.

Lemma renderers_split_at_last_witness :
  timesCalled isCurrentBreadcrumbRendererCall
    (calls (@mountOverflowList exampleCore
       (allVisible (Some divRenderer) (Some divRenderer) ITEMS) 0)) = 1.
Proof.
  apply (proj1 (proj2 (@renderers_split_at_last exampleCore
    (allVisible (Some divRenderer) (Some divRenderer) ITEMS) 0 (take 2 ITEMS)
    (mkBreadcrumbProps 3 {["text" := JStr "3"]}) divRenderer divRenderer
    eq_refl
    ltac:(repeat constructor; discriminate)
    eq_refl eq_refl eq_refl))).
Defined.

(** C4, as stated, fails: the same object is the first and the last of three
    items, both renderers are supplied and all items are visible;
    [currentBreadcrumbRenderer] is called twice and [breadcrumbRenderer]
    once, not [items.length - 1 = 2] times.  With no items at all,
    [currentBreadcrumbRenderer] is not called. *)
Lemma currentBreadcrumbRenderer_called_twice :
  (@visibleItems exampleCore
     (withDefaultProps (allVisible (Some divRenderer) (Some divRenderer) homeTwice)) 0
   = homeTwice
   ∧ timesCalled isCurrentBreadcrumbRendererCall
       (calls (@Breadcrumbs2 exampleCore
          (allVisible (Some divRenderer) (Some divRenderer) homeTwice) 0)) = 2
   ∧ timesCalled isBreadcrumbRendererCall
       (calls (@Breadcrumbs2 exampleCore
          (allVisible (Some divRenderer) (Some divRenderer) homeTwice) 0)) = 1
   ∧ length homeTwice - 1 = 2)
  ∧ timesCalled isCurrentBreadcrumbRendererCall
      (calls (@Breadcrumbs2 exampleCore
         (allVisible (Some divRenderer) (Some divRenderer) []) 0)) = 0.
Proof. vm_compute. repeat split. Qed.

Lemma breadcrumbRenderer_called_for_every_item_witness :
  timesCalled isBreadcrumbRendererCall
    (calls (@mountOverflowList exampleCore (allVisible (Some divRenderer) None ITEMS) 0))
  = length (items (allVisible (Some divRenderer) None ITEMS)).
Proof.
  apply (proj1 (proj2 (@breadcrumbRenderer_called_for_every_item exampleCore
    (allVisible (Some divRenderer) None ITEMS) 0 divRenderer
    eq_refl eq_refl eq_refl))).
Defined.

(** The test "disables menu item when it is not clickable": in a container
    that admits no item all three items overflow, and the three entries of
    the overflow menu, whose descriptors have neither link target nor click
    handler, are disabled. *)
Example all_items_overflow_disabled :
  (λ entry, (elemKey entry, prop entry "disabled"))
    <$> flat_map overflowMenuEntries
          (result (@Breadcrumbs2 exampleCore (collapsing None ITEMS testPopoverProps) 0))
  = [(Some 0, Some (PV (JBool true)));
     (Some 1, Some (PV (JBool true)));
     (Some 2, Some (PV (JBool true)))].
Proof. reflexivity. Qed.

(** * Further properties of the controller *)

(** ** [renderBreadcrumb] and [renderBreadcrumbWrapper] *)

(** X1.  With no renderer supplied, every attribute of the descriptor that
    has a defined value and a name React does not reserve reaches the
    default [Breadcrumb] element unchanged, the non-HTML ones ([text],
    [icon], [intent], ...) and [current] included: nothing is filtered on
    the visible path. *)
Theorem default_breadcrumb_passes_every_attribute this props isCurrent :
  breadcrumbRenderer this = None →
  currentBreadcrumbRenderer this = None →
  ∀ k v, k ∉ reservedProps →
    own props !! k = Some v → v ≠ JUndefined →
    prop (result (renderBreadcrumb this props isCurrent)) k = Some (PV v).
Proof.
  intros Hb Hc k v _ Hv _. rewrite renderBreadcrumb_default by done.
  unfold result, mret, Render_ret; cbn [fst].
  by rewrite prop_default_breadcrumb, Hv.
Qed.

Lemma default_breadcrumb_passes_every_attribute_witness :
  prop (result (renderBreadcrumb (justItems ITEMS)
                  (mkBreadcrumbProps 1 {["text" := JStr "1"; "icon" := JStr "folder"]})
                  false)) "icon"
  = Some (PV (JStr "folder")).
Proof.
  apply (default_breadcrumb_passes_every_attribute (justItems ITEMS)
    (mkBreadcrumbProps 1 {["text" := JStr "1"; "icon" := JStr "folder"]}) false
    eq_refl eq_refl).
  - refine (bool_decide_unpack _ _). vm_compute. exact I.
  - reflexivity.
  - discriminate.
Defined.

Lemma join_nils {A B} (l : list A) : mjoin ((λ _, @nil B) <$> l) = [].
Proof. induction l as [|x l IH]; [reflexivity|]. by cbn. Qed.

Lemma callArg_join (g : BreadcrumbProps → list Call) (l : list BreadcrumbProps) :
  (∀ props, ∃ c, g props = [c] ∧ callArg c = props) →
  callArg <$> mjoin (g <$> l) = l.
Proof.
  intros Hg. induction l as [|p l IH]; [reflexivity|].
  destruct (Hg p) as (c & Hc & Harg).
  csimpl. rewrite Hc, fmap_app, IH. csimpl. by rewrite Harg.
Qed.

Lemma timesCalled_by_identity (final : BreadcrumbProps) (l : list BreadcrumbProps) :
  timesCalled isCurrentBreadcrumbRendererCall
    (mjoin ((λ props, if bool_decide (addr final = addr props)
                      then [CallCurrentBreadcrumbRenderer props]
                      else [CallBreadcrumbRenderer props]) <$> l))
  = length (filter (λ props, addr final = addr props) l)
  ∧ timesCalled isBreadcrumbRendererCall
      (mjoin ((λ props, if bool_decide (addr final = addr props)
                        then [CallCurrentBreadcrumbRenderer props]
                        else [CallBreadcrumbRenderer props]) <$> l))
    = length (filter (λ props, addr final ≠ addr props) l).
Proof.
  induction l as [|p l [IH1 IH2]]; [done|].
  csimpl. rewrite !timesCalled_app, IH1, IH2.
  destruct (decide (addr final = addr p)) as [Heq|Hne].
  - rewrite bool_decide_eq_true_2 by done.
    rewrite filter_cons_True, filter_cons_False by tauto. done.
  - rewrite bool_decide_eq_false_2 by done.
    rewrite filter_cons_False, filter_cons_True by done. done.
Qed.

Section MoreRendererCalls.
Context `{BlueprintCore}.

(** X3.  With only [currentBreadcrumbRenderer] supplied, all items rendered
    through the visible path and the last descriptor an object that occurs
    at no earlier position, the only renderer call of the pass is one call
    of [currentBreadcrumbRenderer] with the last descriptor, and every
    earlier descriptor is rendered as the default [Breadcrumb] element with
    the computed flag [current = false] before its own attributes. *)
Theorem only_currentBreadcrumbRenderer this fit init final currentRenderer :
  items this = init ++ [final] →
  Forall (λ props, addr props ≠ addr final) init →
  breadcrumbRenderer this = None →
  currentBreadcrumbRenderer this = Some currentRenderer →
  visibleItems this fit = items this →
  calls (mountOverflowList this fit) = [CallCurrentBreadcrumbRenderer final]
  ∧ ∀ props index, props ∈ init →
      wrappedBreadcrumb (result (renderBreadcrumbWrapper this props index))
      = Some (jsx Breadcrumb None
                [attr "current" (PV (JBool false)); spreadObj (own props)]).
Proof.
  intros Hitems Hd Hb Hc Hv.
  assert (∀ props, props ∈ init → strictEq (last (items this)) props = false) as Hnot.
  { intros props Hin. rewrite Hitems, strictEq_last.
    apply bool_decide_eq_false_2. intros Heq.
    by apply (proj1 (Forall_forall _ _) Hd props Hin). }
  split.
  - rewrite calls_mountOverflowList, Hv, calls_renderVisible.
    set (f := λ props, calls (renderBreadcrumb this props
                          (strictEq (last (items this)) props))).
    rewrite Hitems, fmap_app, join_app.
    rewrite (list_fmap_ext f (λ _, []) init).
    + rewrite join_nils. subst f. cbn [fmap list_fmap mjoin list_join app].
      rewrite app_nil_r, calls_renderBreadcrumb, Hitems, strictEq_last, Hc.
      by rewrite bool_decide_eq_true_2.
    + intros i props Hp. apply list_elem_of_lookup_2 in Hp. subst f; cbn.
      by rewrite calls_renderBreadcrumb, (Hnot props Hp), Hb.
  - intros props index Hin. rewrite result_renderBreadcrumbWrapper.
    unfold wrappedBreadcrumb, onlyChild, prop, jsx at 1, children;
      cbn [foldl applyAttr elemProps].
    rewrite lookup_insert_eq, (Hnot props Hin).
    unfold renderBreadcrumb. by rewrite Hb.
Qed.

(** X4.  With [breadcrumbRenderer] supplied and all items rendered through
    the visible path, every item is rendered by exactly one renderer call,
    in order and with the descriptor at that position, whether or not
    [currentBreadcrumbRenderer] is supplied and whether or not objects
    repeat in [items]. *)
Theorem every_item_rendered_by_one_call this fit renderer :
  breadcrumbRenderer this = Some renderer →
  visibleItems this fit = items this →
  callArg <$> calls (mountOverflowList this fit) = items this
  ∧ length (calls (mountOverflowList this fit)) = length (items this).
Proof.
  intros Hb Hv.
  assert (callArg <$> calls (mountOverflowList this fit) = items this) as Hargs.
  { rewrite calls_mountOverflowList, Hv, calls_renderVisible.
    apply callArg_join. intros props.
    rewrite calls_renderBreadcrumb, Hb.
    destruct (if strictEq _ _ then _ else _); eauto. }
  split; [done|].
  apply (f_equal length) in Hargs. by rewrite length_fmap in Hargs.
Qed.

(** X5.  With both renderers supplied and all items of a non-empty [items]
    rendered through the visible path, [currentBreadcrumbRenderer] is called
    once for every position that holds the same object as the last one, and
    [breadcrumbRenderer] once for every other position. *)
Theorem renderer_calls_by_identity this fit init final renderer currentRenderer :
  items this = init ++ [final] →
  breadcrumbRenderer this = Some renderer →
  currentBreadcrumbRenderer this = Some currentRenderer →
  visibleItems this fit = items this →
  timesCalled isCurrentBreadcrumbRendererCall (calls (mountOverflowList this fit))
  = S (length (filter (λ props, addr final = addr props) init))
  ∧ timesCalled isBreadcrumbRendererCall (calls (mountOverflowList this fit))
    = length (filter (λ props, addr final ≠ addr props) init).
Proof.
  intros Hitems Hb Hc Hv.
  rewrite calls_mountOverflowList, Hv, calls_renderVisible.
  rewrite (list_fmap_ext _
    (λ props, if bool_decide (addr final = addr props)
              then [CallCurrentBreadcrumbRenderer props]
              else [CallBreadcrumbRenderer props]) (items this)).
  - destruct (timesCalled_by_identity final (items this)) as [-> ->].
    rewrite Hitems, !filter_app, !length_app.
    rewrite filter_cons_True, filter_cons_False by tauto. cbn. lia.
  - intros i props _. rewrite calls_renderBreadcrumb, Hitems, strictEq_last, Hc, Hb.
    by destruct (bool_decide _).
Qed.

End MoreRendererCalls.

Lemma only_currentBreadcrumbRenderer_witness :
  calls (@mountOverflowList exampleCore (allVisible None (Some divRenderer) ITEMS) 0)
  = [CallCurrentBreadcrumbRenderer (mkBreadcrumbProps 3 {["text" := JStr "3"]})].
Proof.
  apply (proj1 (@only_currentBreadcrumbRenderer exampleCore
    (allVisible None (Some divRenderer) ITEMS) 0 (take 2 ITEMS)
    (mkBreadcrumbProps 3 {["text" := JStr "3"]}) divRenderer
    eq_refl
    ltac:(repeat constructor; discriminate)
    eq_refl eq_refl eq_refl)).
Defined.

Lemma every_item_rendered_by_one_call_witness :
  callArg <$> calls (@mountOverflowList exampleCore
    (allVisible (Some divRenderer) (Some divRenderer) homeTwice) 0)
  = homeTwice.
Proof.
  apply (proj1 (@every_item_rendered_by_one_call exampleCore
    (allVisible (Some divRenderer) (Some divRenderer) homeTwice) 0 divRenderer
    eq_refl eq_refl)).
Defined.

Lemma renderer_calls_by_identity_witness :
  timesCalled isCurrentBreadcrumbRendererCall
    (calls (@mountOverflowList exampleCore
       (allVisible (Some divRenderer) (Some divRenderer) homeTwice) 0))
  = 2.
Proof.
  apply (proj1 (@renderer_calls_by_identity exampleCore
    (allVisible (Some divRenderer) (Some divRenderer) homeTwice) 0 (take 2 homeTwice)
    (mkBreadcrumbProps 1 {["text" := JStr "Home"]}) divRenderer divRenderer
    eq_refl eq_refl eq_refl eq_refl)).
Defined.

(** ** [renderOverflow] *)

Section MoreOverflow.
Context `{BlueprintCore}.

Lemma overflowPopover_children this overflowed :
  ∃ popover,
    overflowPopover (renderOverflow this overflowed) = Some popover
    ∧ elemKey popover = None
    ∧ prop popover "children"
      = Some (PElement (jsx (Host "span") None
                [attr "className" (PV (JStr BREADCRUMBS_COLLAPSED))])).
Proof.
  eexists. split; [|split].
  - unfold overflowPopover, onlyChild, prop, renderOverflow.
    unfold jsx at 1, children at 1; cbn [foldl applyAttr elemProps].
    rewrite lookup_insert_eq. reflexivity.
  - reflexivity.
  - unfold prop, jsx, children; cbn [foldl applyAttr elemProps].
    by rewrite lookup_insert_eq.
Qed.

(** X6.  With [popoverProps] of its declared type, the overflow menu has one
    entry per overflowed descriptor, and the entries are keyed 0, 1, 2, ...
    in menu order.  Under [START] the descriptor at position [i] of the
    overflowed list is therefore the entry at position, and with key,
    [length - 1 - i]: keys follow the reversed order, not the order of
    [items]. *)
Theorem overflow_menu_entry_keys this overflowed :
  popoverPropsTyped this →
  length (overflowMenuEntries (renderOverflow this overflowed)) = length overflowed
  ∧ elemKey <$> overflowMenuEntries (renderOverflow this overflowed)
    = Some <$> seq 0 (length overflowed)
  ∧ (collapseFrom this = Some START →
     ∀ i props, overflowed !! i = Some props →
       overflowMenuEntries (renderOverflow this overflowed)
         !! (length overflowed - S i)
       = Some (renderOverflowBreadcrumb props (length overflowed - S i))).
Proof.
  intros Ht. rewrite overflowMenuEntries_renderOverflow by done.
  split; [|split].
  - by rewrite length_imap, length_orderedItems.
  - rewrite fmap_imap, <- (length_orderedItems this overflowed).
    rewrite <- imap_seq_0. by apply imap_ext.
  - intros Hc i props Hi. unfold orderedItems. rewrite Hc.
    apply lookup_lt_Some in Hi as Hlt.
    rewrite list_lookup_imap, reverse_lookup by lia.
    replace (length overflowed - S (length overflowed - S i)) with i by lia.
    by rewrite Hi.
Qed.

(** X7.  Whatever [popoverProps] holds, every field of it that has a
    defined value and a name other than [children] and those React reserves
    reaches the [Popover2] unchanged and replaces what the controller
    computed for that field, [placement] included; and the child of the
    popover is always the [span] with the collapsed-indicator class, which
    [popoverProps] cannot replace. *)
Theorem popoverProps_take_precedence this overflowed :
  ∃ popover,
    overflowPopover (renderOverflow this overflowed) = Some popover
    ∧ (∀ k v, k ≠ "children" → k ∉ reservedProps → v ≠ PV JUndefined →
         default ∅ (popoverProps this) !! k = Some v → prop popover k = Some v)
    ∧ prop popover "children"
      = Some (PElement (jsx (Host "span") None
                [attr "className" (PV (JStr BREADCRUMBS_COLLAPSED))])).
Proof.
  destruct (overflowPopover_renderOverflow this overflowed) as (pop & Hpop & _ & Hprops).
  destruct (overflowPopover_children this overflowed) as (pop' & Hpop' & _ & Hch).
  rewrite Hpop in Hpop'. injection Hpop' as <-.
  exists pop. split; [done|]. split; [|done].
  intros k v Hk _ _ Hv. by rewrite Hprops, Hv.
Qed.

(** X8.  For props as React hands them to the instance (defaults applied)
    and a [popoverProps] without [placement], the order of the menu and the
    placement of the popover agree: either [collapseFrom] is [END], the
    overflowed items keep their order and the popover is placed
    ["bottom-end"], or it is not, the items are reversed and the popover is
    placed ["bottom-start"]. *)
Theorem placement_agrees_with_order props overflowed :
  default ∅ (popoverProps props) !! "placement" = None →
  ∃ popover,
    overflowPopover (renderOverflow (withDefaultProps props) overflowed) = Some popover
    ∧ ((collapseFrom props = Some END
        ∧ orderedItems (withDefaultProps props) overflowed = overflowed
        ∧ prop popover "placement" = Some (PV (JStr "bottom-end")))
       ∨ (collapseFrom props ≠ Some END
          ∧ orderedItems (withDefaultProps props) overflowed = reverse overflowed
          ∧ prop popover "placement" = Some (PV (JStr "bottom-start")))).
Proof.
  intros Hp.
  destruct (overflowPopover_renderOverflow (withDefaultProps props) overflowed)
    as (pop & Hpop & _ & Hprops).
  exists pop. split; [done|].
  rewrite Hprops by discriminate. cbn [popoverProps withDefaultProps]. rewrite Hp.
  rewrite !lookup_insert_ne, lookup_insert_eq by discriminate.
  unfold orderedItems. cbn [collapseFrom withDefaultProps].
  destruct (collapseFrom props) as [[]|]; cbn; [right|left|right]; done.
Qed.

End MoreOverflow.

Lemma overflow_menu_entry_keys_witness :
  elemKey <$> overflowMenuEntries (@renderOverflow exampleCore
    (collapsing None ITEMS testPopoverProps) ITEMS)
  = Some <$> seq 0 (length ITEMS).
Proof.
  apply (proj1 (proj2 (@overflow_menu_entry_keys exampleCore
    (collapsing None ITEMS testPopoverProps) ITEMS
    (popoverPropsTyped_testPopoverProps None ITEMS)))).
Defined.

Lemma placement_agrees_with_order_witness :
  ∃ popover,
    overflowPopover (@renderOverflow exampleCore
      (withDefaultProps (collapsing None ITEMS testPopoverProps)) ITEMS) = Some popover
    ∧ ((collapseFrom (collapsing None ITEMS testPopoverProps) = Some END
        ∧ orderedItems (withDefaultProps (collapsing None ITEMS testPopoverProps)) ITEMS
          = ITEMS
        ∧ prop popover "placement" = Some (PV (JStr "bottom-end")))
       ∨ (collapseFrom (collapsing None ITEMS testPopoverProps) ≠ Some END
          ∧ orderedItems (withDefaultProps (collapsing None ITEMS testPopoverProps)) ITEMS
            = reverse ITEMS
          ∧ prop popover "placement" = Some (PV (JStr "bottom-start")))).
Proof.
  apply (@placement_agrees_with_order exampleCore
    (collapsing None ITEMS testPopoverProps) ITEMS).
  reflexivity.
Defined.

Lemma popoverProps_take_precedence_witness :
  ∃ popover,
    overflowPopover (@renderOverflow exampleCore
      (collapsing None ITEMS testPopoverProps) ITEMS) = Some popover
    ∧ prop popover "isOpen" = Some (PV (JBool true)).
Proof.
  destruct (@popoverProps_take_precedence exampleCore
    (collapsing None ITEMS testPopoverProps) ITEMS) as (popover & Hp & Hf & _).
  exists popover. split; [exact Hp|].
  apply Hf; [discriminate | | discriminate | reflexivity].
  refine (bool_decide_unpack _ _). vm_compute. exact I.
Defined.

(** ** [render] *)

Section MoreRender.
Context `{BlueprintCore}.

(** X9.  What the overflow list receives when [overflowListProps] is silent
    about a field the controller sets first: the tag name is ["ul"]; the
    collapse direction, for props as React hands them to the instance, is
    the caller's [collapseFrom] and [START] when the caller gave none; the
    minimum visible count is the caller's [minVisibleItems] when the caller
    gave one. *)
Theorem render_defaults props :
  (default ∅ (overflowListProps props) !! "tagName" = None →
   prop (render (withDefaultProps props)) "tagName" = Some (PV (JStr "ul")))
  ∧ (default ∅ (overflowListProps props) !! "collapseFrom" = None →
     prop (render (withDefaultProps props)) "collapseFrom"
     = Some (PBoundary (default START (collapseFrom props))))
  ∧ (∀ n, minVisibleItems props = Some n →
     default ∅ (overflowListProps props) !! "minVisibleItems" = None →
     prop (render (withDefaultProps props)) "minVisibleItems"
     = Some (PV (JNum (Z.of_nat n)))).
Proof.
  assert (∀ k, k ∈ ["tagName"; "collapseFrom"; "minVisibleItems"] →
            (k ∉ overflowListPropsOmitted) ∧ k ≠ "className") as Hk.
  { intros k Hin. unfold overflowListPropsOmitted.
    repeat (apply elem_of_cons in Hin as [->|Hin];
            [split; [|discriminate]; intros Hin;
             repeat (apply elem_of_cons in Hin as [Hin|Hin]; [discriminate Hin|]);
             by apply elem_of_nil in Hin|]).
    by apply elem_of_nil in Hin. }
  split; [|split].
  - intros Ho. destruct (Hk "tagName") as [H1 H2]; [repeat constructor|].
    rewrite prop_render_other by done. cbn [overflowListProps withDefaultProps].
    rewrite Ho. by rewrite lookup_insert_eq.
  - intros Ho. destruct (Hk "collapseFrom") as [H1 H2]; [repeat constructor|].
    rewrite prop_render_other by done. cbn [overflowListProps withDefaultProps].
    rewrite Ho. by rewrite !lookup_insert_ne, lookup_insert_eq by discriminate.
  - intros n Hn Ho. destruct (Hk "minVisibleItems") as [H1 H2]; [repeat constructor|].
    rewrite prop_render_other by done. cbn [overflowListProps withDefaultProps].
    rewrite Ho. rewrite lookup_insert_ne, lookup_insert_eq by discriminate.
    cbn [minVisibleItems withDefaultProps]. by rewrite Hn.
Qed.

(** X10.  With a non-empty base class, the class name the overflow list
    receives is the base class alone when neither [overflowListProps] nor
    the component gives a class; the base class, a space and the component's
    class when only the component gives one; and the base class, the class of
    [overflowListProps] and the component's class, in this order and
    separated by single spaces, when both do. *)
Theorem render_className_composition this :
  BREADCRUMBS ≠ "" →
  (default ∅ (overflowListProps this) !! "className" = None →
   className this = None →
   prop (render this) "className" = Some (PV (JStr BREADCRUMBS)))
  ∧ (∀ ownClass, ownClass ≠ "" →
       default ∅ (overflowListProps this) !! "className" = None →
       className this = Some ownClass →
       prop (render this) "className"
       = Some (PV (JStr (BREADCRUMBS +:+ " " +:+ ownClass))))
  ∧ (∀ listClass ownClass, listClass ≠ "" → ownClass ≠ "" →
       default ∅ (overflowListProps this) !! "className"
       = Some (PV (JStr listClass)) →
       className this = Some ownClass →
       prop (render this) "className"
       = Some (PV (JStr (BREADCRUMBS +:+ " " +:+ listClass +:+ " " +:+ ownClass)))).
Proof.
  intros HB. rewrite prop_render_className. unfold classNames.
  split; [|split].
  - intros -> ->. cbn [omap list_omap id].
    rewrite filter_cons_True by done. by destruct BREADCRUMBS.
  - intros ownClass Hown -> ->. cbn [omap list_omap id].
    rewrite !filter_cons_True by done. cbn. by destruct BREADCRUMBS.
  - intros listClass ownClass Hlist Hown -> ->. cbn [omap list_omap id].
    rewrite !filter_cons_True by done. cbn. by destruct BREADCRUMBS.
Qed.

End MoreRender.

Lemma render_defaults_witness :
  prop (@render exampleCore (withDefaultProps (justItems ITEMS))) "collapseFrom"
  = Some (PBoundary START).
Proof.
  apply (proj1 (proj2 (@render_defaults exampleCore (justItems ITEMS)))).
  reflexivity.
Defined.

Lemma render_className_composition_witness :
  prop (@render exampleCore passThroughProps) "className"
  = Some (PV (JStr ("bp4-breadcrumbs" +:+ " " +:+ "overflow-list-class"
                    +:+ " " +:+ "breadcrumbs-class"))).
Proof.
  apply (proj2 (proj2 (@render_className_composition exampleCore passThroughProps
    ltac:(discriminate))));
    [discriminate | discriminate | reflexivity | reflexivity].
Defined.
